(** * Spending tracker: the page and the Dash callbacks of [modules/spending_tracker.py]

    The module builds the page ([add_category_modal], [layout]) and
    registers three callbacks ([register_callbacks]): [toggle_modal]
    (opens the "add category" dialog), [update_category_dropdown]
    (validates and stores a new category, then rebuilds the dropdown
    options) and [update_output] (validates and stores one spending row).

    Python values are embedded as follows.
    - [str] is [string]; a character is read as the code point
      U+0000..U+00FF it denotes, and [PyStr.isalnum] is [str.isalnum] on
      that range.
    - [Union[T, None]] is [option T]; [int] is [Z].
    - [dash.no_update] is the constructor [no_update] of [dash_output].
    - [dbc.Alert(text, color=.., duration=..)] is the record [Alert].
    - a call that may raise returns a [result]; a statement of a function
      body completes normally, by [return] or by [raise] ([completion]). *)

From Stdlib Require Import ZArith List Bool String Ascii Lia DecimalString.
Import ListNotations.
Local Open Scope string_scope.
Local Open Scope list_scope.

(* ------------------------------------------------------------------ *)
(** ** Python strings *)

Module PyStr.

Definition in_range (lo hi n : N) : bool := ((lo <=? n) && (n <=? hi))%N.

(** [c.isalnum()] for one character: letters, decimal digits and the
    other numeric characters of the Unicode database, up to U+00FF. *)
Definition char_isalnum (c : ascii) : bool :=
  let n := N_of_ascii c in
  in_range 48 57 n || in_range 65 90 n || in_range 97 122 n
  || (n =? 170)%N || in_range 178 179 n || (n =? 181)%N
  || in_range 185 186 n || in_range 188 190 n
  || in_range 192 214 n || in_range 216 246 n || in_range 248 255 n.

Fixpoint all_chars (p : ascii -> bool) (s : string) : bool :=
  match s with
  | EmptyString => true
  | String c t => p c && all_chars p t
  end.

(** [s.isalnum()]: at least one character, and all of them alphanumeric. *)
Definition isalnum (s : string) : bool :=
  match s with
  | EmptyString => false
  | String _ _ => all_chars char_isalnum s
  end.

(** Truth value of a [Union[str, None]]: [None] and [''] are falsy. *)
Definition truthy (v : option string) : bool :=
  match v with
  | None => false
  | Some EmptyString => false
  | Some (String _ _) => true
  end.

(** [sub in s] on strings: [sub] occurs in [s] as a substring. *)
Fixpoint contains (sub s : string) : bool :=
  prefix sub s
  || match s with
     | EmptyString => false
     | String _ t => contains sub t
     end.

(** [sub] occurs in [s]: what [contains] decides. *)
Definition substring_of (sub s : string) : Prop :=
  exists pre post : string, s = (pre ++ sub ++ post)%string.

(** [str(z)] for an [int]. *)
Definition str_of_int (z : Z) : string := NilZero.string_of_int (Z.to_int z).

(** The double-quote character, U+0022, used inside an f-string. *)
Definition dquote : string := String (ascii_of_nat 34) EmptyString.

End PyStr.

(* ------------------------------------------------------------------ *)
(** ** Dash values *)

(** What a callback hands back for one [Output]: [dash.no_update] or a
    new value of the property. *)
Inductive dash_output (A : Type) : Type :=
| no_update : dash_output A
| value (a : A) : dash_output A.
Arguments no_update {A}.
Arguments value {A} a.

(** [dbc.Alert(children, color=..., duration=...)]; [duration] is [None]
    when the keyword is not given. *)
Record Alert : Type := mkAlert {
  children : string;
  color : string;
  duration : option Z
}.

(** One entry [{'label': l, 'value': v}] of the dropdown's [options]. *)
Record dropdown_option : Type := mkOption {
  label : string;
  value_of : string
}.

Definition ADD_NEW : string := "ADD_NEW".

(** [{'label': cat, 'value': cat}] *)
Definition category_option (cat : string) : dropdown_option := mkOption cat cat.

(** [{'label': 'Add new', 'value': 'ADD_NEW'}] *)
Definition add_new_option : dropdown_option := mkOption "Add new" ADD_NEW.

(** [[{'label': cat, 'value': cat} for cat in cats] + [{'label': 'Add new', 'value': 'ADD_NEW'}]] *)
Definition dropdown_options (cats : list string) : list dropdown_option :=
  map category_option cats ++ [add_new_option].

(* ------------------------------------------------------------------ *)
(** ** Exceptions and results *)

Inductive exn : Type :=
| sqlite3_Error (msg : string)       (* sqlite3.Error and its subclasses *)
| UnboundLocalError (name : string)  (* a local variable read before assignment *)
| Exception (msg : string).          (* any other exception *)

Inductive result (A : Type) : Type :=
| Returns (a : A)
| Raises (e : exn).
Arguments Returns {A} a.
Arguments Raises {A} e.

(* ------------------------------------------------------------------ *)
(** ** [toggle_modal] *)

(** [if selected_value and 'ADD_NEW' in selected_value: return True]
    [return is_open] *)
Definition toggle_modal (selected_value : option string) (is_open : bool) : bool :=
  match selected_value with
  | Some s =>
      if PyStr.truthy selected_value && PyStr.contains ADD_NEW s then true
      else is_open
  | None => is_open
  end.

(* ------------------------------------------------------------------ *)
(** ** The category repository and [update_category_dropdown] *)

(** The two functions imported from [modules.database], applied to the
    database at [db_path]: each runs against a store and either returns
    or raises.  The handler is written over this interface. *)
Class CategoryRepository (Store : Type) : Type := {
  add_category_to_db : string -> Store -> result unit * Store;
  get_categories : Store -> result (list string) * Store
}.

(** The three outputs of the callback: dropdown [options], the [value] of
    the text input and the [children] of the alert container. *)
Definition category_outputs : Type :=
  (dash_output (list dropdown_option) * string * option Alert)%type.

Definition input_value_of (r : category_outputs) : string := snd (fst r).

(** [f'Category "{new_category}" added successfully!'] *)
Definition category_added_text (new_category : string) : string :=
  "Category " ++ PyStr.dquote ++ new_category ++ PyStr.dquote
  ++ " added successfully!".

Definition is_none {A : Type} (v : option A) : bool :=
  match v with
  | None => true
  | Some _ => false
  end.

Definition update_category_dropdown {Store : Type} `{CategoryRepository Store}
    (n_clicks : option Z) (new_category : option string)
    (st : Store) : result category_outputs * Store :=
  (* if n_clicks is None or not new_category: *)
  if is_none n_clicks || negb (PyStr.truthy new_category) then
    (Returns (no_update, "", None), st)
  else
    match new_category with
    | None => (Returns (no_update, "", None), st)   (* [None] is falsy: taken above *)
    | Some s =>
        (* if not new_category.isalnum(): *)
        if negb (PyStr.isalnum s) then
          (Returns (no_update, "",
                    Some (mkAlert "Invalid category name." "warning" None)), st)
        else
          match add_category_to_db s st with
          | (Raises e, st1) => (Raises e, st1)
          | (Returns _, st1) =>
              match get_categories st1 with
              | (Raises e, st2) => (Raises e, st2)
              | (Returns updated_categories, st2) =>
                  (Returns (value (dropdown_options updated_categories), "",
                            Some (mkAlert (category_added_text s) "success" None)),
                   st2)
              end
          end
    end.

(** The inputs on which the handler returns before it touches storage:
    the guard, and the validation. *)
Definition short_circuits (n_clicks : option Z) (new_category : option string) : Prop :=
  n_clicks = None \/ new_category = None \/ new_category = Some "".

Definition fails_validation (n_clicks : option Z) (new_category : option string) : Prop :=
  exists k s, n_clicks = Some k /\ new_category = Some s
              /\ s <> "" /\ PyStr.isalnum s = false.

(** The [value]s of a list of options, in order. *)
Definition option_values (opts : list dropdown_option) : list string :=
  map value_of opts.

(** Modelled from the spec: the category repository of [modules/database.py]
    ([add_category_to_db], [get_categories]).  The spec gives the table
    [categories(name TEXT)], says that adding a category appends a row to
    it without a check against existing entries, that listing returns the
    sequence of names, and that either call may fail with a storage error.
    [insert_error] and [select_error] say whether the next insert or select
    fails, and with which exception. *)
Record category_table : Type := mkTable {
  names : list string;
  insert_error : option exn;
  select_error : option exn
}.

(** Modelled from the spec: [add_category_to_db] appends the name as a new
    row, [get_categories] returns the names of all rows in order; each
    raises instead when the table says so. *)
#[export] Instance table_repository : CategoryRepository category_table := {
  add_category_to_db name t :=
    match insert_error t with
    | Some e => (Raises e, t)
    | None => (Returns tt, mkTable (names t ++ [name]) (insert_error t) (select_error t))
    end;
  get_categories t :=
    match select_error t with
    | Some e => (Raises e, t)
    | None => (Returns (names t), t)
    end
}.

Definition database_is_locked : exn := sqlite3_Error "database is locked".

(** A table on which no call fails. *)
Definition healthy_table (l : list string) : category_table := mkTable l None None.

(* ------------------------------------------------------------------ *)
(** ** [sqlite3] and [update_output] *)

Section Spending.

(** The value of the amount input, an [int] or a [float], and its
    rendering by an f-string replacement field. *)
Variable Amount : Type.
Variable str_of_amount : Amount -> string.

(** A row [(amount, category)] of the table [spending]. *)
Definition row : Type := (Amount * string)%type.

(** A connection object: the rows inserted and not yet committed, and
    whether [close] was called.  Closing without a commit discards the
    pending rows. *)
Record connection : Type := mkConn {
  pending : list row;
  closed : bool
}.

(** The committed rows of [spending] in the database at [db_path], and
    the local variable [conn] of the running handler ([None]: not bound). *)
Record state : Type := mkState {
  spending : list row;
  conn : option connection
}.

(** For each [sqlite3] call of the handler, the exception it raises in
    this run, if any. *)
Record sqlite3_faults : Type := mkFaults {
  connect_raises : option exn;
  cursor_raises : option exn;
  execute_raises : option exn;
  commit_raises : option exn
}.

Definition no_faults : sqlite3_faults := mkFaults None None None None.

(** How a statement ends: it falls through to the next one, returns a
    value from the function, or raises. *)
Inductive completion : Type :=
| Normal
| Return (v : dash_output Alert)
| Raise (e : exn).

Definition stmt : Type := state -> completion * state.

Definition seq (s1 s2 : stmt) : stmt :=
  fun st =>
    match s1 st with
    | (Normal, st1) => s2 st1
    | other => other
    end.

Definition return_ (v : dash_output Alert) : stmt := fun st => (Return v, st).

(** [try: body / except sqlite3.Error as e: handler / finally: final].
    The handler runs when the body raises an [sqlite3.Error]; the
    [finally] block always runs, and when it does not end normally its
    own completion replaces the pending return or exception. *)
Definition try_except_finally (body : stmt) (handler : string -> stmt)
    (final : stmt) : stmt :=
  fun st =>
    let '(c1, st1) := body st in
    let '(c2, st2) :=
      match c1 with
      | Raise (sqlite3_Error msg) => handler msg st1
      | _ => (c1, st1)
      end in
    let '(c3, st3) := final st2 in
    match c3 with
    | Normal => (c2, st3)
    | _ => (c3, st3)
    end.

(** A method call on the object bound to [conn]: reading the variable
    raises when it is not bound, a closed connection refuses to operate,
    and otherwise the call raises what the run says or takes effect. *)
Definition on_conn (fault : option exn) (effect : connection -> state -> state) : stmt :=
  fun st =>
    match conn st with
    | None => (Raise (UnboundLocalError "conn"), st)
    | Some k =>
        if closed k then
          (Raise (sqlite3_Error "Cannot operate on a closed database."), st)
        else
          match fault with
          | Some e => (Raise e, st)
          | None => (Normal, effect k st)
          end
    end.

Section Calls.
Variable run : sqlite3_faults.

(** [conn = sqlite3.connect(db_path)] *)
Definition connect : stmt :=
  fun st =>
    match connect_raises run with
    | Some e => (Raise e, st)
    | None => (Normal, mkState (spending st) (Some (mkConn [] false)))
    end.

(** [c = conn.cursor()] *)
Definition cursor : stmt := on_conn (cursor_raises run) (fun _ st => st).

(** [c.execute('INSERT INTO spending (amount, category) VALUES (?, ?)', (amount, category))] *)
Definition execute_insert (amount : Amount) (category : string) : stmt :=
  on_conn (execute_raises run)
    (fun k st =>
       mkState (spending st) (Some (mkConn (pending k ++ [(amount, category)]) false))).

(** [conn.commit()] *)
Definition commit : stmt :=
  on_conn (commit_raises run)
    (fun k st => mkState (spending st ++ pending k) (Some (mkConn [] false))).

(** [conn.close()] *)
Definition close : stmt :=
  fun st =>
    match conn st with
    | None => (Raise (UnboundLocalError "conn"), st)
    | Some _ => (Normal, mkState (spending st) (Some (mkConn [] true)))
    end.

(** [f'Amount: {amount}, Category: {category} added successfully!'] *)
Definition spending_added_text (amount : Amount) (category : string) : string :=
  "Amount: " ++ str_of_amount amount ++ ", Category: " ++ category
  ++ " added successfully!".

(** [f'Database error: {e}'] *)
Definition database_error_text (msg : string) : string :=
  "Database error: " ++ msg.

(** The [try] statement of the handler. *)
Definition insert_spending (amount : Amount) (category : string) : stmt :=
  try_except_finally
    (seq connect (seq cursor (seq (execute_insert amount category) commit)))
    (fun msg =>
       return_ (value (mkAlert (database_error_text msg) "danger" (Some 3000%Z))))
    close.

(** The exception that ends the [try] body in this run, if any: the
    one of the first call that raises. *)
Definition first_error : option exn :=
  match connect_raises run, cursor_raises run, execute_raises run with
  | Some e, _, _ => Some e
  | None, Some e, _ => Some e
  | None, None, Some e => Some e
  | None, None, None => commit_raises run
  end.

(** The handler runs on the committed rows [db]; its local variable
    [conn] is not bound when it starts. *)
Definition update_output (n_clicks : option Z) (amount : option Amount)
    (category : option string) (db : list row) : completion * state :=
  let st := mkState db None in
  match n_clicks with
  | None => (Return no_update, st)
  | Some n =>
      if (0 <? n)%Z then
        match amount, category with
        | Some a, Some c =>
            seq (insert_spending a c)
                (return_ (value (mkAlert (spending_added_text a c) "success"
                                   (Some 3000%Z))))
                st
        | _, _ =>
            (Return (value (mkAlert "Please enter a valid amount and select a category"
                              "danger" (Some 3000%Z))), st)
        end
      else
        (Return (value (mkAlert "Enter amount and select a category"
                          "warning" (Some 3000%Z))), st)
  end.

End Calls.

End Spending.

Arguments mkState {Amount} spending conn.
Arguments mkConn {Amount} pending closed.
Arguments spending {Amount} s.
Arguments conn {Amount} s.
Arguments pending {Amount} c.
Arguments closed {Amount} c.
Arguments update_output {Amount} str_of_amount run n_clicks amount category db.
Arguments spending_added_text {Amount} str_of_amount amount category.
Arguments seq {Amount} s1 s2 st.
Arguments return_ {Amount} v st.
Arguments try_except_finally {Amount} body handler final st.
Arguments connect {Amount} run st.
Arguments cursor {Amount} run st.
Arguments execute_insert {Amount} run amount category st.
Arguments commit {Amount} run st.
Arguments close {Amount} st.
Arguments insert_spending {Amount} run amount category st.

(** Amounts that are Python [int]s, rendered by [str]. *)
Definition update_output_int :=
  update_output PyStr.str_of_int.


(* ------------------------------------------------------------------ *)
(** ** Components, [add_category_modal] and [layout] *)

(** The value of a keyword argument of a component. *)
Inductive prop_value : Type :=
| PStr (s : string)
| PInt (z : Z)
| PBool (b : bool)
| POptions (opts : list dropdown_option)
| PDict (d : list (string * Z)).

(** A component: a string child, or a component class applied to keyword
    arguments and children (a single child is a one-element list). *)
#[warnings="-register-all"]
Inductive component : Type :=
| Text (s : string)
| Node (kind : string) (props : list (string * prop_value))
       (children : list component).

Definition add_category_modal : component :=
  Node "dbc.Modal"
    [("id", PStr "modal_new_category"); ("is_open", PBool false)]
    [ Node "dbc.ModalHeader" []
        [Node "dbc.ModalTitle" [] [Text "Add New Category"]];
      Node "dbc.ModalBody" []
        [Node "dcc.Input"
           [("id", PStr "new_category_input"); ("type", PStr "text");
            ("placeholder", PStr "New Category Name")] []];
      Node "dbc.ModalFooter" []
        [Node "dbc.Button"
           [("id", PStr "add_new_category_button"); ("className", PStr "ms-auto");
            ("n_clicks", PInt 0%Z)]
           [Text "Add"]] ].

(** The container that [layout] returns, for the options it computed. *)
Definition layout_container (updated_dropdown_options : list dropdown_option) : component :=
  Node "dbc.Container" [("fluid", PBool true)]
    [ Node "dbc.Row" []
        [Node "dbc.Col" [("width", PDict [("size", 6%Z); ("offset", 3%Z)])]
           [Node "dbc.Card" []
              [Node "dbc.CardBody" []
                 [ Node "dcc.Input"
                     [("id", PStr "spending_amount"); ("type", PStr "number");
                      ("placeholder", PStr "Amount"); ("className", PStr "mb-2")] [];
                   Node "dcc.Dropdown"
                     [("id", PStr "category_dropdown");
                      ("options", POptions updated_dropdown_options);
                      ("placeholder", PStr "Select a category");
                      ("searchable", PBool true)] [];
                   Node "dbc.Button"
                     [("id", PStr "submit_button"); ("color", PStr "success");
                      ("className", PStr "mt-2")]
                     [Text "Submit"] ]]]];
      Node "dbc.Row" []
        [Node "dbc.Col" [("width", PInt 12%Z)]
           [Node "html.Div" [("id", PStr "alert-container")] []]];
      Node "dbc.Row" []
        [Node "dbc.Col" [("width", PInt 12%Z)]
           [Node "html.Div" [("id", PStr "output-container")] []]];
      add_category_modal ].

(** [layout()]: fetch the categories, build the options, return the
    container; an exception of [get_categories] is not caught. *)
Definition layout {Store : Type} `{CategoryRepository Store}
    (st : Store) : result component * Store :=
  match get_categories st with
  | (Raises e, st1) => (Raises e, st1)
  | (Returns updated_categories, st1) =>
      (Returns (layout_container (dropdown_options updated_categories)), st1)
  end.

(** The keyword argument [name] of a component, if it was given. *)
Fixpoint prop_lookup (name : string) (props : list (string * prop_value))
    : option prop_value :=
  match props with
  | [] => None
  | (k, v) :: rest => if (k =? name)%string then Some v else prop_lookup name rest
  end.

Definition id_of (props : list (string * prop_value)) : option string :=
  match prop_lookup "id" props with
  | Some (PStr i) => Some i
  | _ => None
  end.

(** The ids of a component and of its descendants, parents first. *)
Fixpoint ids (c : component) : list string :=
  match c with
  | Text _ => []
  | Node _ props children =>
      match id_of props with
      | Some i => [i]
      | None => []
      end
      ++ (fix ids_of_list (l : list component) : list string :=
            match l with
            | [] => []
            | x :: rest => ids x ++ ids_of_list rest
            end) children
  end.

(** The keyword argument [name] of the first component with id [i]. *)
Fixpoint property (i name : string) (c : component) : option prop_value :=
  match c with
  | Text _ => None
  | Node _ props children =>
      if match id_of props with
         | Some j => (j =? i)%string
         | None => false
         end
      then prop_lookup name props
      else (fix property_of_list (l : list component) : option prop_value :=
              match l with
              | [] => None
              | x :: rest =>
                  if existsb (String.eqb i) (ids x) then property i name x
                  else property_of_list rest
              end) children
  end.

(* ------------------------------------------------------------------ *)
(** ** [register_callbacks] *)

(** [Output(id, property)], [Input(id, property)], [State(id, property)]. *)
Record dependency : Type := mkDep {
  component_id : string;
  component_property : string
}.

(** The arguments of one [@app.callback(...)]. *)
Record callback : Type := mkCallback {
  outputs : list dependency;
  inputs : list dependency;
  states : list dependency;
  prevent_initial_call : bool
}.

Definition toggle_modal_callback : callback :=
  mkCallback
    [mkDep "modal_new_category" "is_open"]
    [mkDep "category_dropdown" "value"]
    [mkDep "modal_new_category" "is_open"]
    false.

Definition update_category_dropdown_callback : callback :=
  mkCallback
    [mkDep "category_dropdown" "options"; mkDep "new_category_input" "value";
     mkDep "alert-container" "children"]
    [mkDep "add_new_category_button" "n_clicks"]
    [mkDep "new_category_input" "value"]
    true.

Definition update_output_callback : callback :=
  mkCallback
    [mkDep "output-container" "children"]
    [mkDep "submit_button" "n_clicks"]
    [mkDep "spending_amount" "value"; mkDep "category_dropdown" "value"]
    false.

(** [register_callbacks(app)] adds the three callbacks to those of [app],
    in the order of the source. *)
Definition register_callbacks (app : list callback) : list callback :=
  app ++ [toggle_modal_callback; update_category_dropdown_callback;
          update_output_callback].

(** Every [Output], [Input] and [State] of a callback. *)
Definition dependencies (cb : callback) : list dependency :=
  outputs cb ++ inputs cb ++ states cb.

(** One invocation of the submit handler: what the [sqlite3] calls do in
    it, and its three arguments. *)
Record submission (Amount : Type) : Type := mkSubmission {
  sub_run : sqlite3_faults;
  sub_clicks : option Z;
  sub_amount : option Amount;
  sub_category : option string
}.
Arguments mkSubmission {Amount} sub_run sub_clicks sub_amount sub_category.
Arguments sub_run {Amount} s.
Arguments sub_clicks {Amount} s.
Arguments sub_amount {Amount} s.
Arguments sub_category {Amount} s.

(** Successive invocations of [update_output] against the same database:
    each runs on the rows the previous one left committed. *)
Fixpoint submit_all {Amount : Type} (str_of_amount : Amount -> string)
    (l : list (submission Amount)) (db : list (row Amount)) : list (row Amount) :=
  match l with
  | [] => db
  | s :: rest =>
      submit_all str_of_amount rest
        (spending (snd (update_output str_of_amount (sub_run s) (sub_clicks s)
                          (sub_amount s) (sub_category s) db)))
  end.

(** The row of an invocation that has a positive trigger count, both
    inputs and no failing storage call; no row otherwise. *)
Definition accepted_row {Amount : Type} (s : submission Amount) : list (row Amount) :=
  match sub_clicks s, sub_amount s, sub_category s, first_error (sub_run s) with
  | Some n, Some a, Some c, None => if (0 <? n)%Z then [(a, c)] else []
  | _, _, _, _ => []
  end.

(** The connection a handler run must not leave behind: none, or one that
    was closed with nothing pending. *)
Definition released {Amount : Type} (st : state Amount) : Prop :=
  conn st = None \/ conn st = Some (mkConn [] true).

(** A repository whose fetch can be repeated: a fetch that returned
    returns the same names again on the store it left. *)
Definition repeatable_reads {Store : Type} `{CategoryRepository Store} : Prop :=
  forall (st st1 : Store) (cats : list string),
    get_categories st = (Returns cats, st1) ->
    get_categories st1 = (Returns cats, st1).

(* ================================================================== *)
(** * Properties *)

(* ------------------------------------------------------------------ *)
(** ** Strings *)

Section StringFacts.

Lemma append_assoc (a b c : string) :
  ((a ++ b) ++ c = a ++ (b ++ c))%string.
Proof.
  induction a as [|x a IH]; simpl.
  - reflexivity.
  - now rewrite IH.
Qed.

Lemma append_empty_r (a : string) : (a ++ "")%string = a.
Proof.
  induction a as [|x a IH]; simpl.
  - reflexivity.
  - now rewrite IH.
Qed.

Lemma prefix_iff (p s : string) :
  prefix p s = true <-> exists post, s = (p ++ post)%string.
Proof.
  revert s; induction p as [|x p IH]; intros s; simpl.
  - destruct s; split; intros _; try reflexivity; eexists; reflexivity.
  - destruct s as [|y s]; simpl.
    + split; [discriminate | intros [post Hp]; discriminate].
    + destruct (ascii_dec x y) as [->|Hxy].
      * rewrite IH. split; intros [post Hp]; exists post.
        -- now rewrite Hp.
        -- now inversion Hp.
      * split; [discriminate | intros [post Hp]; congruence].
Qed.

Lemma contains_iff (sub s : string) :
  PyStr.contains sub s = true <-> PyStr.substring_of sub s.
Proof.
  unfold PyStr.substring_of.
  induction s as [|y s IH]; cbn [PyStr.contains].
  - rewrite orb_false_r. split.
    + intros Hp. apply prefix_iff in Hp. destruct Hp as [post Hp].
      exists "", post. exact Hp.
    + intros [pre [post Hp]]. apply prefix_iff.
      destruct pre; simpl in Hp; [now exists post | discriminate].
  - rewrite orb_true_iff. split.
    + intros [Hp | Hc].
      * apply prefix_iff in Hp. destruct Hp as [post Hp].
        exists "", post. exact Hp.
      * apply IH in Hc. destruct Hc as [pre [post Hp]].
        exists (String y pre), post. simpl. now rewrite Hp.
    + intros [pre [post Hp]]. destruct pre as [|z pre]; simpl in Hp.
      * left. apply prefix_iff. now exists post.
      * right. apply IH. inversion Hp. now exists pre, post.
Qed.

Example isalnum_examples :
  PyStr.isalnum "Food" = true /\ PyStr.isalnum "abc123" = true
  /\ PyStr.isalnum "Food!" = false /\ PyStr.isalnum "a b" = false
  /\ PyStr.isalnum "" = false /\ PyStr.isalnum ADD_NEW = false.
Proof. repeat split. Qed.

Lemma isalnum_truthy (s : string) :
  PyStr.isalnum s = true -> PyStr.truthy (Some s) = true.
Proof. destruct s; simpl; [discriminate | reflexivity]. Qed.

Lemma truthy_nonempty (s : string) : s <> "" -> PyStr.truthy (Some s) = true.
Proof. destruct s; [congruence | reflexivity]. Qed.

(** Every character of an alphanumeric string is alphanumeric, so such a
    string has no underscore and cannot contain the sentinel. *)
Lemma all_chars_contains (p : ascii -> bool) (sub s : string) :
  PyStr.all_chars p s = true -> PyStr.substring_of sub s ->
  PyStr.all_chars p sub = true.
Proof.
  intros Hs [pre [post ->]]. revert Hs.
  induction pre as [|x pre IH]; simpl.
  - induction sub as [|y sub IHs]; simpl; [reflexivity|].
    rewrite !andb_true_iff. intros [Hy Hr]. split; auto.
  - rewrite andb_true_iff. intros [_ Hr]. auto.
Qed.

Lemma isalnum_not_sentinel (s : string) :
  PyStr.isalnum s = true -> PyStr.contains ADD_NEW s = false.
Proof.
  intros Hs. destruct (PyStr.contains ADD_NEW s) eqn:Hc; [|reflexivity].
  apply contains_iff in Hc.
  assert (Ha : PyStr.all_chars PyStr.char_isalnum s = true)
    by (destruct s; [discriminate | exact Hs]).
  pose proof (all_chars_contains _ _ _ Ha Hc) as Hn.
  vm_compute in Hn. discriminate.
Qed.

End StringFacts.

(* ------------------------------------------------------------------ *)
(** ** [toggle_modal] *)

Section ToggleModal.

Lemma toggle_modal_sentinel (is_open : bool) :
  toggle_modal (Some ADD_NEW) is_open = true.
Proof. reflexivity. Qed.

Lemma toggle_modal_eq (selected_value : option string) (is_open : bool) :
  toggle_modal selected_value is_open =
    match selected_value with
    | Some s => if PyStr.contains ADD_NEW s then true else is_open
    | None => is_open
    end.
Proof.
  destruct selected_value as [s|]; [|reflexivity].
  unfold toggle_modal. destruct s as [|c s]; reflexivity.
Qed.

(** C5, as stated, fails: the test is ['ADD_NEW' in selected_value], a
    substring test.  The value ['ADD_NEWS'] is not the sentinel, the
    dialog is closed, and the handler answers open. *)
Lemma toggle_modal_opens_on_other_value :
  Some "ADD_NEWS" <> Some ADD_NEW
  /\ toggle_modal (Some "ADD_NEWS") false = true
  /\ toggle_modal (Some "ADD_NEWS") false <> false.
Proof. repeat split; [discriminate | discriminate]. Qed.

(** C5, amended: the handler returns open when the selected value
    contains the sentinel ['ADD_NEW'] as a substring, in particular when
    it equals it; for every other selected value, [None] and the empty
    string included, it returns the current state unchanged.  The
    handler is a function of its two inputs alone. *)
Theorem toggle_modal_contract :
  forall (selected_value : option string) (is_open : bool),
    (selected_value = Some ADD_NEW -> toggle_modal selected_value is_open = true)
    /\ (forall s, selected_value = Some s -> PyStr.substring_of ADD_NEW s ->
                  toggle_modal selected_value is_open = true)
    /\ ((forall s, selected_value = Some s -> ~ PyStr.substring_of ADD_NEW s) ->
        toggle_modal selected_value is_open = is_open).
Proof.
  intros sv is_open. rewrite toggle_modal_eq. repeat split.
  - intros ->. reflexivity.
  - intros s -> Hs. apply contains_iff in Hs. now rewrite Hs.
  - intros Hno. destruct sv as [s|]; [|reflexivity].
    destruct (PyStr.contains ADD_NEW s) eqn:Hc; [|reflexivity].
    apply contains_iff in Hc. now elim (Hno s eq_refl).
Qed.

Lemma toggle_modal_contract_witness :
  toggle_modal (Some ADD_NEW) false = true
  /\ toggle_modal (Some "ADD_NEWS") false = true
  /\ toggle_modal (Some "Food") false = false
  /\ toggle_modal None true = true.
Proof.
  split; [|split; [|split]].
  - apply (proj1 (toggle_modal_contract (Some ADD_NEW) false)). reflexivity.
  - apply (proj1 (proj2 (toggle_modal_contract (Some "ADD_NEWS") false)) "ADD_NEWS").
    + reflexivity.
    + exists "", "S". reflexivity.
  - apply (proj2 (proj2 (toggle_modal_contract (Some "Food") false))).
    intros s Hs Hsub. inversion Hs; subst s.
    apply contains_iff in Hsub. vm_compute in Hsub. discriminate.
  - apply (proj2 (proj2 (toggle_modal_contract None true))).
    intros s Hs. discriminate.
Defined.

(** On the values the dropdown is built from, an alphanumeric category
    name or the sentinel, containing the sentinel and being it agree. *)
Lemma toggle_modal_on_dropdown_values (s : string) (is_open : bool) :
  PyStr.isalnum s = true -> toggle_modal (Some s) is_open = is_open.
Proof.
  intros Hs. rewrite toggle_modal_eq. now rewrite (isalnum_not_sentinel s Hs).
Qed.

End ToggleModal.

(* ------------------------------------------------------------------ *)
(** ** [update_category_dropdown], over any repository *)

Section AddCategory.

Context {Store : Type} `{CategoryRepository Store}.

(** The guard of the handler, by cases on its inputs. *)
Lemma guard_taken_iff (n_clicks : option Z) (new_category : option string) :
  is_none n_clicks || negb (PyStr.truthy new_category) = true
  <-> short_circuits n_clicks new_category.
Proof.
  unfold short_circuits.
  destruct n_clicks as [k|], new_category as [[|c s]|]; simpl; split;
    try (intros _; auto; fail); try discriminate.
  intros [Habs | [Habs | Habs]]; discriminate.
Qed.

Lemma valid_name_runs_storage (k : Z) (s : string) (st : Store) :
  PyStr.isalnum s = true ->
  update_category_dropdown (Some k) (Some s) st =
    match add_category_to_db s st with
    | (Raises e, st1) => (Raises e, st1)
    | (Returns _, st1) =>
        match get_categories st1 with
        | (Raises e, st2) => (Raises e, st2)
        | (Returns updated_categories, st2) =>
            (Returns (value (dropdown_options updated_categories), "",
                      Some (mkAlert (category_added_text s) "success" None)),
             st2)
        end
    end.
Proof.
  intros Hal. unfold update_category_dropdown.
  rewrite (isalnum_truthy s Hal), Hal. reflexivity.
Qed.

(** A present trigger count never short-circuits on a valid name, whatever
    the count and the repository: the handler goes to storage, and its
    result is not the no-update triple. *)
Lemma present_trigger_goes_to_storage (k : Z) (s : string) (st st' : Store) :
  PyStr.isalnum s = true ->
  update_category_dropdown (Some k) (Some s) st
    <> (Returns (no_update, "", None), st').
Proof.
  intros Hal. rewrite (valid_name_runs_storage k s st Hal).
  destruct (add_category_to_db s st) as [[u|e1] st1]; [|discriminate].
  destruct (get_categories st1) as [[cats|e2] st2]; discriminate.
Qed.

(** C4, amended: when the trigger count is absent ([None]) or the text
    is empty ([None] or ['']), the handler calls no repository function,
    leaves the store as it was, and returns no-update for the options,
    the empty string for the text field and no alert. *)
Theorem short_circuit_no_mutation :
  forall (n_clicks : option Z) (new_category : option string) (st : Store),
    n_clicks = None \/ new_category = None \/ new_category = Some "" ->
    update_category_dropdown n_clicks new_category st
      = (Returns (no_update, "", None), st).
Proof.
  intros n txt st Hsc. apply guard_taken_iff in Hsc.
  unfold update_category_dropdown. now rewrite Hsc.
Qed.

(** C3, amended: for a present trigger count and every non-empty string
    that is not alphanumeric, the handler returns the warning alert
    'Invalid category name.', no-update for the options, and leaves the
    store as it was. *)
Theorem invalid_name_warning :
  forall (k : Z) (s : string) (st : Store),
    s <> "" -> PyStr.isalnum s = false ->
    update_category_dropdown (Some k) (Some s) st
      = (Returns (no_update, "",
                  Some (mkAlert "Invalid category name." "warning" None)), st).
Proof.
  intros k s st Hs Hal. unfold update_category_dropdown.
  rewrite (truthy_nonempty s Hs). simpl.
  now rewrite Hal.
Qed.

(** C9: on an invocation that reaches the storage layer (present trigger
    count, alphanumeric text) the handler raises exactly when
    [add_category_to_db] raises, or it returns and [get_categories]
    raises; the exception and the store are the ones of the failing
    call. *)
Theorem storage_errors_propagate :
  forall (k : Z) (s : string) (st : Store) (e : exn) (st' : Store),
    PyStr.isalnum s = true ->
    (update_category_dropdown (Some k) (Some s) st = (Raises e, st')
     <->
     add_category_to_db s st = (Raises e, st')
     \/ exists st1, add_category_to_db s st = (Returns tt, st1)
                    /\ get_categories st1 = (Raises e, st')).
Proof.
  intros k s st e st' Hal. rewrite (valid_name_runs_storage k s st Hal).
  destruct (add_category_to_db s st) as [[[]|e1] st1] eqn:Hadd.
  - destruct (get_categories st1) as [[cats|e2] st2] eqn:Hget.
    + split; [discriminate|].
      intros [Habs | [st1' [Heq Habs]]]; [discriminate|].
      inversion Heq; subst st1'. rewrite Hget in Habs. discriminate.
    + split.
      * intros Heq. right. exists st1. split; [reflexivity|].
        rewrite Hget. inversion Heq; reflexivity.
      * intros [Habs | [st1' [Heq Habs]]]; [discriminate|].
        inversion Heq; subst st1'. rewrite Hget in Habs.
        inversion Habs; reflexivity.
  - split.
    + intros Heq. left. inversion Heq; reflexivity.
    + intros [Heq | [st1' [Habs _]]]; [|discriminate].
      inversion Heq; reflexivity.
Qed.

(** C10: the value returned for the new-category text field is the empty
    string on every branch.  On a short-circuit and on a validation
    failure the handler returns, with [''] for the field; on the success
    branch, when both repository calls return, it returns with [''] for
    the field; whatever it returns has [''] for the field; and after a
    validation failure the field no longer holds the typed text. *)
Theorem text_field_always_cleared :
  forall (n_clicks : option Z) (new_category : option string) (st : Store),
    (short_circuits n_clicks new_category \/ fails_validation n_clicks new_category ->
     exists opts alert,
       update_category_dropdown n_clicks new_category st
         = (Returns (opts, "", alert), st))
    /\ (forall k s st1 cats st2,
          n_clicks = Some k -> new_category = Some s -> PyStr.isalnum s = true ->
          add_category_to_db s st = (Returns tt, st1) ->
          get_categories st1 = (Returns cats, st2) ->
          exists opts alert,
            update_category_dropdown n_clicks new_category st
              = (Returns (opts, "", alert), st2))
    /\ (forall r st',
          update_category_dropdown n_clicks new_category st = (Returns r, st') ->
          input_value_of r = "")
    /\ (forall s r st',
          new_category = Some s -> fails_validation n_clicks new_category ->
          update_category_dropdown n_clicks new_category st = (Returns r, st') ->
          input_value_of r <> s).
Proof.
  intros n txt st.
  assert (Hany : forall r st',
             update_category_dropdown n txt st = (Returns r, st') ->
             input_value_of r = "").
  { intros r st'. unfold update_category_dropdown.
    destruct (is_none n || negb (PyStr.truthy txt)).
    - intros Heq; inversion Heq; reflexivity.
    - destruct txt as [s|]; [|intros Heq; inversion Heq; reflexivity].
      destruct (negb (PyStr.isalnum s)).
      + intros Heq; inversion Heq; reflexivity.
      + destruct (add_category_to_db s st) as [[u|e1] st1]; [|discriminate].
        destruct (get_categories st1) as [[cats|e2] st2]; [|discriminate].
        intros Heq; inversion Heq; reflexivity. }
  split; [|split; [|split]].
  - unfold update_category_dropdown.
    intros [Hsc | [k [s [-> [-> [Hs Hal]]]]]].
    + apply guard_taken_iff in Hsc. rewrite Hsc. now exists no_update, None.
    + rewrite (truthy_nonempty s Hs). simpl. rewrite Hal. simpl.
      eexists _, _. reflexivity.
  - intros k s st1 cats st2 -> -> Hal Hadd Hget.
    rewrite (valid_name_runs_storage k s st Hal), Hadd, Hget.
    eexists _, _. reflexivity.
  - exact Hany.
  - intros s r st' -> [k [s' [_ [Hs' [Hne _]]]]] Heq.
    inversion Hs'; subst s'. rewrite (Hany r st' Heq). congruence.
Qed.

End AddCategory.

(* ------------------------------------------------------------------ *)
(** ** [update_category_dropdown] on the categories table *)

Section CategoryTable.

Lemma option_values_dropdown (cats : list string) :
  option_values (dropdown_options cats) = cats ++ [ADD_NEW].
Proof.
  unfold option_values, dropdown_options.
  rewrite map_app, map_map. simpl. now rewrite map_id.
Qed.

Lemma count_occ_snoc (l : list string) (x y : string) :
  count_occ string_dec (l ++ [y]) x
  = count_occ string_dec l x + (if string_dec y x then 1 else 0).
Proof.
  rewrite count_occ_app. simpl. destruct (string_dec y x); reflexivity.
Qed.

Lemma isalnum_neq_sentinel (name : string) :
  PyStr.isalnum name = true -> ADD_NEW <> name.
Proof. intros Hal <-. vm_compute in Hal. discriminate. Qed.

(** C4, as stated, fails for a trigger count of zero: the guard is
    [n_clicks is None], so with [n_clicks = 0] and the text ['Food'] the
    handler inserts the category and returns a new options list and a
    success alert. *)
Lemma zero_clicks_inserts :
  update_category_dropdown (Some 0%Z) (Some "Food") (healthy_table [])
    = (Returns (value [category_option "Food"; add_new_option], "",
                Some (mkAlert (category_added_text "Food") "success" None)),
       healthy_table ["Food"])
  /\ healthy_table ["Food"] <> healthy_table []
  /\ update_category_dropdown (Some 0%Z) (Some "Food") (healthy_table [])
     <> (Returns (no_update, "", None), healthy_table []).
Proof. repeat split; discriminate. Qed.

Lemma short_circuit_no_mutation_witness :
  update_category_dropdown None (Some "Food") (healthy_table ["Rent"])
    = (Returns (no_update, "", None), healthy_table ["Rent"])
  /\ update_category_dropdown (Some 1%Z) (Some "") (healthy_table ["Rent"])
     = (Returns (no_update, "", None), healthy_table ["Rent"])
  /\ update_category_dropdown (Some 1%Z) None (healthy_table ["Rent"])
     = (Returns (no_update, "", None), healthy_table ["Rent"]).
Proof.
  split; [|split].
  - apply (short_circuit_no_mutation None (Some "Food") (healthy_table ["Rent"])).
    left; reflexivity.
  - apply (short_circuit_no_mutation (Some 1%Z) (Some "") (healthy_table ["Rent"])).
    right; right; reflexivity.
  - apply (short_circuit_no_mutation (Some 1%Z) None (healthy_table ["Rent"])).
    right; left; reflexivity.
Defined.

(** C3, as stated, fails when the trigger count is absent: the text
    ['Food!'] is non-empty and not alphanumeric, and the handler returns
    no alert. *)
Lemma invalid_name_without_trigger :
  "Food!" <> "" /\ PyStr.isalnum "Food!" = false
  /\ update_category_dropdown None (Some "Food!") (healthy_table ["Rent"])
     = (Returns (no_update, "", None), healthy_table ["Rent"])
  /\ fst (update_category_dropdown None (Some "Food!") (healthy_table ["Rent"]))
     <> Returns (no_update, "",
                 Some (mkAlert "Invalid category name." "warning" None)).
Proof. repeat split; discriminate. Qed.

Lemma invalid_name_warning_witness :
  update_category_dropdown (Some 1%Z) (Some "Food!") (healthy_table ["Rent"])
    = (Returns (no_update, "",
                Some (mkAlert "Invalid category name." "warning" None)),
       healthy_table ["Rent"])
  /\ update_category_dropdown (Some 1%Z) (Some "a b") (healthy_table ["Rent"])
     = (Returns (no_update, "",
                 Some (mkAlert "Invalid category name." "warning" None)),
        healthy_table ["Rent"]).
Proof.
  split.
  - apply (invalid_name_warning 1%Z "Food!" (healthy_table ["Rent"]));
      [discriminate | reflexivity].
  - apply (invalid_name_warning 1%Z "a b" (healthy_table ["Rent"]));
      [discriminate | reflexivity].
Defined.

Lemma storage_errors_propagate_witness :
  update_category_dropdown (Some 1%Z) (Some "Food") (mkTable ["Rent"] (Some database_is_locked) None)
    = (Raises database_is_locked, mkTable ["Rent"] (Some database_is_locked) None)
  /\ update_category_dropdown (Some 1%Z) (Some "Food") (mkTable ["Rent"] None (Some database_is_locked))
     = (Raises database_is_locked, mkTable ["Rent"; "Food"] None (Some database_is_locked))
  /\ update_category_dropdown (Some 1%Z) (Some "Food") (healthy_table ["Rent"])
     <> (Raises database_is_locked, healthy_table ["Rent"]).
Proof.
  split; [|split].
  - apply (proj2 (storage_errors_propagate 1%Z "Food"
                    (mkTable ["Rent"] (Some database_is_locked) None) database_is_locked
                    (mkTable ["Rent"] (Some database_is_locked) None) eq_refl)).
    left. reflexivity.
  - apply (proj2 (storage_errors_propagate 1%Z "Food"
                    (mkTable ["Rent"] None (Some database_is_locked)) database_is_locked
                    (mkTable ["Rent"; "Food"] None (Some database_is_locked)) eq_refl)).
    right. exists (mkTable ["Rent"; "Food"] None (Some database_is_locked)).
    split; reflexivity.
  - intros Heq.
    apply (proj1 (storage_errors_propagate 1%Z "Food"
                    (healthy_table ["Rent"]) database_is_locked
                    (healthy_table ["Rent"]) eq_refl)) in Heq.
    destruct Heq as [Habs | [st1 [Hadd Habs]]].
    + vm_compute in Habs. discriminate.
    + vm_compute in Hadd. inversion Hadd; subst st1.
      vm_compute in Habs. discriminate.
Defined.

Lemma text_field_always_cleared_witness :
  (exists opts alert,
     update_category_dropdown (Some 1%Z) (Some "Food!") (healthy_table ["Rent"])
       = (Returns (opts, "", alert), healthy_table ["Rent"]))
  /\ (exists opts alert,
        update_category_dropdown (Some 1%Z) (Some "Food") (healthy_table ["Rent"])
          = (Returns (opts, "", alert), healthy_table ["Rent"; "Food"])).
Proof.
  split.
  - apply (proj1 (text_field_always_cleared (Some 1%Z) (Some "Food!")
                    (healthy_table ["Rent"]))).
    right. exists 1%Z, "Food!". repeat split. discriminate.
  - apply (proj1 (proj2 (text_field_always_cleared (Some 1%Z) (Some "Food")
                           (healthy_table ["Rent"])))
             1%Z "Food" (healthy_table ["Rent"; "Food"]) ["Rent"; "Food"]);
      reflexivity.
Defined.

(** C2, as stated, fails for a name that is already a category: the
    repository appends without looking at the existing rows, so after
    adding ['Food'] to a table that holds ['Food'] the options list has
    it twice. *)
Lemma existing_category_listed_twice :
  PyStr.isalnum "Food" = true
  /\ update_category_dropdown (Some 1%Z) (Some "Food") (healthy_table ["Food"])
     = (Returns (value [category_option "Food"; category_option "Food"; add_new_option], "",
                 Some (mkAlert (category_added_text "Food") "success" None)),
        healthy_table ["Food"; "Food"])
  /\ count_occ string_dec (option_values [category_option "Food"; category_option "Food"; add_new_option]) "Food" = 2
  /\ count_occ string_dec (option_values [category_option "Food"; category_option "Food"; add_new_option]) "Food" <> 1.
Proof. repeat split; discriminate. Qed.

(** C2, amended: for every alphanumeric string [name] and every present
    click count, when neither the insert nor the list fetch fails, the
    handler appends [name] to the categories, returns the options
    rebuilt from the whole table with the sentinel ['ADD_NEW'] appended
    last, the empty string for the text field and a success alert whose
    text contains [name]; [name] is the value of one option more than it
    had rows before, so of exactly one when it was not a category yet. *)
Theorem add_category_success :
  forall (k : Z) (name : string) (t : category_table),
    PyStr.isalnum name = true ->
    insert_error t = None -> select_error t = None ->
    let opts := dropdown_options (names t ++ [name]) in
    let alert := mkAlert (category_added_text name) "success" None in
    update_category_dropdown (Some k) (Some name) t
      = (Returns (value opts, "", Some alert), healthy_table (names t ++ [name]))
    /\ PyStr.contains name (children alert) = true
    /\ opts = map category_option (names t ++ [name]) ++ [add_new_option]
    /\ count_occ string_dec (option_values opts) name
       = S (count_occ string_dec (names t) name)
    /\ (~ In name (names t) ->
        count_occ string_dec (option_values opts) name = 1).
Proof.
  intros k name t Hal Hins Hsel opts alert.
  assert (Hcount : count_occ string_dec (option_values opts) name
                   = S (count_occ string_dec (names t) name)).
  { unfold opts. rewrite option_values_dropdown, !count_occ_snoc.
    destruct (string_dec name name) as [_|Hne]; [|congruence].
    destruct (string_dec ADD_NEW name) as [Heq|_].
    - now elim (isalnum_neq_sentinel name Hal).
    - lia. }
  split; [|split; [|split; [|split]]].
  - rewrite (valid_name_runs_storage k name t Hal). simpl.
    rewrite Hins. simpl. rewrite Hsel. reflexivity.
  - apply contains_iff.
    exists ("Category " ++ PyStr.dquote)%string,
           (PyStr.dquote ++ " added successfully!")%string.
    reflexivity.
  - reflexivity.
  - exact Hcount.
  - intros Hnot. rewrite Hcount.
    apply (count_occ_not_In string_dec) in Hnot. now rewrite Hnot.
Qed.

Lemma add_category_success_witness :
  update_category_dropdown (Some 1%Z) (Some "Food") (healthy_table ["Rent"])
    = (Returns (value (dropdown_options ["Rent"; "Food"]), "",
                Some (mkAlert (category_added_text "Food") "success" None)),
       healthy_table ["Rent"; "Food"])
  /\ count_occ string_dec (option_values (dropdown_options ["Rent"; "Food"])) "Food" = 1.
Proof.
  pose proof (add_category_success 1%Z "Food" (healthy_table ["Rent"])
                eq_refl eq_refl eq_refl) as [Hrun [_ [_ [_ Honce]]]].
  split.
  - exact Hrun.
  - apply Honce. simpl. intros [Habs | []]. discriminate.
Defined.

End CategoryTable.

(* ------------------------------------------------------------------ *)
(** ** [update_output] *)

Section SubmitSpending.

Variable Amount : Type.
Variable str_of_amount : Amount -> string.

(** The [try] statement when no call raises: the row is committed and
    the connection closed. *)
Lemma insert_spending_ok (run : sqlite3_faults) (a : Amount) (c : string)
    (db : list (row Amount)) :
  first_error run = None ->
  insert_spending run a c (mkState db None)
    = (Normal, mkState (db ++ [(a, c)]) (Some (mkConn [] true))).
Proof.
  destruct run as [[e1|] [e2|] [e3|] [e4|]]; simpl; try discriminate.
  intros _. reflexivity.
Qed.

(** The [try] statement when the connection opens and a later call
    raises an [sqlite3.Error]: nothing is committed, the connection is
    closed and the function returns the danger alert. *)
Lemma insert_spending_error (run : sqlite3_faults) (a : Amount) (c : string)
    (db : list (row Amount)) (msg : string) :
  connect_raises run = None ->
  first_error run = Some (sqlite3_Error msg) ->
  insert_spending run a c (mkState db None)
    = (Return (value (mkAlert (database_error_text msg) "danger" (Some 3000%Z))),
       mkState db (Some (mkConn [] true))).
Proof.
  destruct run as [[e1|] [e2|] [e3|] [e4|]]; simpl; try discriminate;
    intros _ Hfirst; inversion Hfirst; subst; reflexivity.
Qed.

(** The [try] statement when [sqlite3.connect] raises: [conn] is not
    bound when the [finally] block reads it. *)
Lemma insert_spending_connect_error (run : sqlite3_faults) (a : Amount)
    (c : string) (db : list (row Amount)) (e : exn) :
  connect_raises run = Some e ->
  insert_spending run a c (mkState db None)
    = (Raise (UnboundLocalError "conn"), mkState db None).
Proof.
  destruct run as [[e1|] r2 r3 r4]; simpl; [|discriminate].
  intros _. destruct e1; reflexivity.
Qed.

Lemma update_output_positive (run : sqlite3_faults) (n : Z) (a : Amount)
    (c : string) (db : list (row Amount)) :
  (0 < n)%Z ->
  update_output str_of_amount run (Some n) (Some a) (Some c) db
    = seq (insert_spending run a c)
        (return_ (value (mkAlert (spending_added_text str_of_amount a c)
                           "success" (Some 3000%Z))))
        (mkState db None).
Proof.
  intros Hn. unfold update_output.
  apply Z.ltb_lt in Hn. now rewrite Hn.
Qed.

(** C1, amended: with a positive trigger count and both amount and
    category present, when no storage call raises, exactly one row
    (amount, category) is added to the committed rows of the spending
    table, the connection is closed, and the handler returns a success
    alert whose text contains the amount and the category and which
    dismisses itself after 3000 ms. *)
Theorem submit_inserts_one_row :
  forall (run : sqlite3_faults) (n : Z) (a : Amount) (c : string)
         (db : list (row Amount)),
    (0 < n)%Z -> first_error run = None ->
    exists alert,
      update_output str_of_amount run (Some n) (Some a) (Some c) db
        = (Return (value alert),
           mkState (db ++ [(a, c)]) (Some (mkConn [] true)))
      /\ color alert = "success"
      /\ duration alert = Some 3000%Z
      /\ PyStr.contains (str_of_amount a) (children alert) = true
      /\ PyStr.contains c (children alert) = true.
Proof.
  intros run n a c db Hn Hok.
  exists (mkAlert (spending_added_text str_of_amount a c) "success" (Some 3000%Z)).
  split; [|split; [|split; [|split]]].
  - rewrite (update_output_positive run n a c db Hn).
    unfold seq. now rewrite (insert_spending_ok run a c db Hok).
  - reflexivity.
  - reflexivity.
  - apply contains_iff.
    exists "Amount: ", (", Category: " ++ c ++ " added successfully!")%string.
    reflexivity.
  - apply contains_iff.
    exists ("Amount: " ++ str_of_amount a ++ ", Category: ")%string,
           " added successfully!".
    simpl children. unfold spending_added_text.
    now rewrite !append_assoc.
Qed.

(** C6: with a positive trigger count, when the amount is [None] or the
    category is [None], the handler returns the danger alert 'Please
    enter a valid amount and select a category', dismissing itself
    after 3000 ms; no connection is opened and the spending table keeps
    its rows. *)
Theorem submit_missing_input :
  forall (run : sqlite3_faults) (n : Z) (amount : option Amount)
         (category : option string) (db : list (row Amount)),
    (0 < n)%Z -> amount = None \/ category = None ->
    update_output str_of_amount run (Some n) amount category db
      = (Return (value (mkAlert "Please enter a valid amount and select a category"
                          "danger" (Some 3000%Z))),
         mkState db None).
Proof.
  intros run n amount category db Hn Hmiss.
  unfold update_output. apply Z.ltb_lt in Hn. rewrite Hn.
  destruct Hmiss as [-> | ->]; [reflexivity|].
  destruct amount; reflexivity.
Qed.

(** C7, amended: with an absent trigger count the handler returns
    no-update; with a trigger count of zero or less it returns the
    warning alert 'Enter amount and select a category' (the text has no
    final full stop), dismissing itself after 3000 ms; in both cases no
    connection is opened and the spending table keeps its rows. *)
Theorem submit_not_triggered :
  forall (run : sqlite3_faults) (amount : option Amount)
         (category : option string) (db : list (row Amount)),
    update_output str_of_amount run None amount category db = (Return no_update, mkState db None)
    /\ forall n : Z,
         (n <= 0)%Z ->
         update_output str_of_amount run (Some n) amount category db
           = (Return (value (mkAlert "Enter amount and select a category"
                               "warning" (Some 3000%Z))),
              mkState db None).
Proof.
  intros run amount category db. split; [reflexivity|].
  intros n Hn. unfold update_output.
  destruct (0 <? n)%Z eqn:Hlt; [|reflexivity].
  apply Z.ltb_lt in Hlt. lia.
Qed.

(** The storage errors the handler does report: when the connection
    opens and the cursor, the insert or the commit raises an
    [sqlite3.Error], the
    handler returns a danger alert whose text contains the error text,
    dismissing itself after 3000 ms; the connection is closed, nothing is
    committed, and no call is made again. *)
Lemma submit_reports_storage_error (run : sqlite3_faults) (n : Z) (a : Amount)
    (c : string) (db : list (row Amount)) (msg : string) :
  (0 < n)%Z -> connect_raises run = None ->
  first_error run = Some (sqlite3_Error msg) ->
  update_output str_of_amount run (Some n) (Some a) (Some c) db
    = (Return (value (mkAlert (database_error_text msg) "danger" (Some 3000%Z))),
       mkState db (Some (mkConn [] true)))
  /\ PyStr.contains msg (database_error_text msg) = true.
Proof.
  intros Hn Hconn Hfirst. split.
  - rewrite (update_output_positive run n a c db Hn).
    unfold seq. now rewrite (insert_spending_error run a c db msg Hconn Hfirst).
  - apply contains_iff. exists "Database error: ", "".
    now rewrite append_empty_r.
Qed.

(** C8 is not met when it is [sqlite3.connect] that raises the storage
    error: the [except] clause prepares the danger alert, then the
    [finally] block reads [conn], which was never bound, and the handler
    raises [UnboundLocalError] instead of returning the alert. *)
Theorem submit_connect_error_escapes :
  forall (run : sqlite3_faults) (n : Z) (a : Amount) (c : string)
         (db : list (row Amount)) (msg : string),
    (0 < n)%Z -> connect_raises run = Some (sqlite3_Error msg) ->
    update_output str_of_amount run (Some n) (Some a) (Some c) db
      = (Raise (UnboundLocalError "conn"), mkState db None).
Proof.
  intros run n a c db msg Hn Hconn.
  rewrite (update_output_positive run n a c db Hn).
  unfold seq. now rewrite (insert_spending_connect_error run a c db _ Hconn).
Qed.

End SubmitSpending.

(* ------------------------------------------------------------------ *)
(** ** [update_output] on integer amounts *)

Section SubmitExamples.

(** C1, as stated, fails when a storage call raises: with a positive
    trigger count, amount 42 and category ['Food'], an insert that
    raises [sqlite3.Error] leaves the table without the row, and the
    handler returns the danger alert, not a success alert. *)
Lemma submit_storage_error_inserts_nothing :
  (0 < 1)%Z
  /\ update_output_int
       (mkFaults None None (Some (sqlite3_Error "no such table: spending")) None)
       (Some 1%Z) (Some 42%Z) (Some "Food") []
     = (Return (value (mkAlert "Database error: no such table: spending"
                         "danger" (Some 3000%Z))),
        mkState [] (Some (mkConn [] true)))
  /\ ~ (exists alert st,
          update_output_int
            (mkFaults None None (Some (sqlite3_Error "no such table: spending")) None)
            (Some 1%Z) (Some 42%Z) (Some "Food") []
          = (Return (value alert), st)
          /\ color alert = "success"
          /\ spending st = [(42%Z, "Food")]).
Proof.
  split; [reflexivity|]. split; [reflexivity|].
  intros [alert [st [Hrun [Hcol _]]]].
  vm_compute in Hrun. inversion Hrun; subst alert. discriminate.
Qed.

Lemma submit_inserts_one_row_witness :
  exists alert,
    update_output_int no_faults (Some 1%Z) (Some 42%Z) (Some "Food") [(7%Z, "Rent")]
      = (Return (value alert),
         mkState [(7%Z, "Rent"); (42%Z, "Food")] (Some (mkConn [] true)))
    /\ color alert = "success"
    /\ duration alert = Some 3000%Z
    /\ PyStr.contains "42" (children alert) = true
    /\ PyStr.contains "Food" (children alert) = true.
Proof.
  exact (submit_inserts_one_row Z PyStr.str_of_int no_faults 1%Z 42%Z "Food"
           [(7%Z, "Rent")] eq_refl eq_refl).
Defined.

Lemma submit_missing_input_witness :
  update_output_int no_faults (Some 1%Z) None (Some "Food") [(7%Z, "Rent")]
    = (Return (value (mkAlert "Please enter a valid amount and select a category"
                        "danger" (Some 3000%Z))),
       mkState [(7%Z, "Rent")] None)
  /\ update_output_int no_faults (Some 1%Z) (Some 42%Z) None [(7%Z, "Rent")]
     = (Return (value (mkAlert "Please enter a valid amount and select a category"
                         "danger" (Some 3000%Z))),
        mkState [(7%Z, "Rent")] None).
Proof.
  split.
  - apply (submit_missing_input Z PyStr.str_of_int no_faults 1%Z None (Some "Food")
             [(7%Z, "Rent")]); [reflexivity | left; reflexivity].
  - apply (submit_missing_input Z PyStr.str_of_int no_faults 1%Z (Some 42%Z) None
             [(7%Z, "Rent")]); [reflexivity | right; reflexivity].
Defined.

(** C7, as stated, fails on the text of the alert: with a trigger count
    of zero the handler returns 'Enter amount and select a category',
    without the full stop that the claim puts at its end. *)
Lemma zero_clicks_warning_text :
  update_output_int no_faults (Some 0%Z) (Some 42%Z) (Some "Food") []
    = (Return (value (mkAlert "Enter amount and select a category"
                        "warning" (Some 3000%Z))),
       mkState [] None)
  /\ ~ (exists alert st,
          update_output_int no_faults (Some 0%Z) (Some 42%Z) (Some "Food") []
          = (Return (value alert), st)
          /\ children alert = "Enter amount and select a category.").
Proof.
  split; [reflexivity|].
  intros [alert [st [Hrun Htext]]].
  vm_compute in Hrun. inversion Hrun; subst alert. discriminate.
Qed.

Lemma submit_not_triggered_witness :
  update_output_int no_faults None (Some 42%Z) (Some "Food") [(7%Z, "Rent")]
    = (Return no_update, mkState [(7%Z, "Rent")] None)
  /\ update_output_int no_faults (Some 0%Z) (Some 42%Z) (Some "Food") [(7%Z, "Rent")]
     = (Return (value (mkAlert "Enter amount and select a category"
                         "warning" (Some 3000%Z))),
        mkState [(7%Z, "Rent")] None).
Proof.
  destruct (submit_not_triggered Z PyStr.str_of_int no_faults (Some 42%Z)
              (Some "Food") [(7%Z, "Rent")]) as [Hnone Hzero].
  split.
  - exact Hnone.
  - apply (Hzero 0%Z). discriminate.
Defined.

Lemma submit_connect_error_escapes_witness :
  update_output_int
    (mkFaults (Some (sqlite3_Error "unable to open database file")) None None None)
    (Some 1%Z) (Some 42%Z) (Some "Food") [(7%Z, "Rent")]
  = (Raise (UnboundLocalError "conn"), mkState [(7%Z, "Rent")] None).
Proof.
  apply (submit_connect_error_escapes Z PyStr.str_of_int
           (mkFaults (Some (sqlite3_Error "unable to open database file")) None None None)
           1%Z 42%Z "Food" [(7%Z, "Rent")] "unable to open database file");
    reflexivity.
Defined.

(** The other storage errors are reported: an insert or a commit that
    raises gives the danger alert and a closed connection. *)
Example commit_error_reported :
  update_output_int (mkFaults None None None (Some database_is_locked))
    (Some 1%Z) (Some 42%Z) (Some "Food") [(7%Z, "Rent")]
  = (Return (value (mkAlert "Database error: database is locked"
                      "danger" (Some 3000%Z))),
     mkState [(7%Z, "Rent")] (Some (mkConn [] true))).
Proof. reflexivity. Qed.

End SubmitExamples.

(* ================================================================== *)
(** * Further properties of the callbacks and of the layout *)

(* ------------------------------------------------------------------ *)
(** ** The options list *)

Section DropdownOptions.

Lemma category_option_not_sentinel (c : string) :
  category_option c <> add_new_option.
Proof.
  unfold category_option, add_new_option, ADD_NEW. intros Heq.
  assert (Hl : c = "Add new") by congruence.
  assert (Hv : c = "ADD_NEW") by congruence.
  rewrite Hl in Hv. discriminate Hv.
Qed.

(** The options list built from a category list has one option per
    category, in order, each with its name as label and value, followed
    by the 'Add new' option, which is therefore always present and last,
    also when there is no category. *)
Theorem dropdown_options_shape :
  forall (cats : list string) (d : dropdown_option),
    List.length (dropdown_options cats) = S (List.length cats)
    /\ last (dropdown_options cats) d = add_new_option
    /\ removelast (dropdown_options cats) = map category_option cats
    /\ option_values (dropdown_options cats) = cats ++ [ADD_NEW]
    /\ map label (dropdown_options cats) = cats ++ ["Add new"].
Proof.
  intros cats d. unfold dropdown_options.
  split; [|split; [|split; [|split]]].
  - rewrite length_app, length_map. simpl. lia.
  - apply last_last.
  - apply removelast_last.
  - unfold option_values. rewrite map_app, map_map. simpl. now rewrite map_id.
  - rewrite map_app, map_map. simpl. now rewrite map_id.
Qed.

End DropdownOptions.

(* ------------------------------------------------------------------ *)
(** ** [toggle_modal] and the registered callbacks *)

Section DialogState.

(** [toggle_modal] never closes the dialog: on an open dialog it answers
    open for every selected value, and applying it twice to the same
    selection changes nothing more.  It is the only registered callback
    that writes the dialog's [is_open], so no callback of the module ever
    closes the dialog. *)
Theorem toggle_modal_never_closes :
  forall (selected_value : option string) (is_open : bool),
    (is_open = true -> toggle_modal selected_value is_open = true)
    /\ toggle_modal selected_value (toggle_modal selected_value is_open)
       = toggle_modal selected_value is_open
    /\ (forall cb,
          In cb (register_callbacks []) ->
          In (mkDep "modal_new_category" "is_open") (outputs cb) ->
          cb = toggle_modal_callback).
Proof.
  intros sv b. rewrite !toggle_modal_eq. split; [|split].
  - intros ->. destruct sv as [s|]; [|reflexivity].
    now destruct (PyStr.contains ADD_NEW s).
  - destruct sv as [s|]; [|reflexivity].
    now destruct (PyStr.contains ADD_NEW s).
  - intros cb Hcb Hout. simpl in Hcb.
    destruct Hcb as [<- | [<- | [<- | []]]].
    + reflexivity.
    + simpl in Hout. destruct Hout as [Habs | [Habs | [Habs | []]]]; discriminate.
    + simpl in Hout. destruct Hout as [Habs | []]; discriminate.
Qed.

Lemma toggle_modal_never_closes_witness :
  toggle_modal (Some "Food") true = true
  /\ toggle_modal None true = true
  /\ toggle_modal_callback = toggle_modal_callback.
Proof.
  split; [|split].
  - apply (proj1 (toggle_modal_never_closes (Some "Food") true)). reflexivity.
  - apply (proj1 (toggle_modal_never_closes None true)). reflexivity.
  - apply (proj2 (proj2 (toggle_modal_never_closes None true)) toggle_modal_callback).
    + left. reflexivity.
    + left. reflexivity.
Defined.

End DialogState.

(* ------------------------------------------------------------------ *)
(** ** What [update_category_dropdown] returns, over any repository *)

Section AddCategoryOutputs.

Context {Store : Type} `{CategoryRepository Store}.

Lemma options_follow_storage_aux (n_clicks : option Z)
    (new_category : option string) (st st' : Store) (r : category_outputs) :
  update_category_dropdown n_clicks new_category st = (Returns r, st') ->
  fst (fst r) <> no_update ->
  exists s, new_category = Some s /\ PyStr.isalnum s = true.
Proof.
  unfold update_category_dropdown.
  destruct (is_none n_clicks || negb (PyStr.truthy new_category)).
  - intros Heq Hne; inversion Heq; subst r. now elim Hne.
  - destruct new_category as [s|];
      [|intros Heq Hne; inversion Heq; subst r; now elim Hne].
    destruct (PyStr.isalnum s) eqn:Hal; simpl.
    + intros _ _. now exists s.
    + intros Heq Hne; inversion Heq; subst r. now elim Hne.
Qed.

(** Whenever the handler returns no-update for the options, the store is
    as it was; whenever it returns an options list, the text was an
    alphanumeric name, the insert was made, and the list is built from the
    categories fetched after the insert. *)
Theorem options_follow_storage :
  forall (n_clicks : option Z) (new_category : option string) (st st' : Store)
         (r : category_outputs),
    update_category_dropdown n_clicks new_category st = (Returns r, st') ->
    match fst (fst r) with
    | no_update => st' = st
    | value opts =>
        exists s st1 cats,
          new_category = Some s /\ PyStr.isalnum s = true
          /\ add_category_to_db s st = (Returns tt, st1)
          /\ get_categories st1 = (Returns cats, st')
          /\ opts = dropdown_options cats
    end.
Proof.
  intros n txt st st' r. unfold update_category_dropdown.
  destruct (is_none n || negb (PyStr.truthy txt)).
  - intros Heq; inversion Heq; reflexivity.
  - destruct txt as [s|]; [|intros Heq; inversion Heq; reflexivity].
    destruct (PyStr.isalnum s) eqn:Hal; simpl.
    + destruct (add_category_to_db s st) as [[[]|e1] st1] eqn:Hadd; [|discriminate].
      destruct (get_categories st1) as [[cats|e2] st2] eqn:Hget; [|discriminate].
      intros Heq; inversion Heq; subst. simpl.
      exists s, st1, cats. repeat split; assumption.
    + intros Heq; inversion Heq; reflexivity.
Qed.

(** A name that the handler accepted and stored never opens the dialog
    when it is selected in the dropdown: [toggle_modal] leaves the state
    as it is, because an alphanumeric name cannot contain 'ADD_NEW'. *)
Theorem stored_name_never_opens_dialog :
  forall (n_clicks : option Z) (new_category : option string) (st st' : Store)
         (opts : list dropdown_option) (text : string) (alert : option Alert)
         (is_open : bool),
    update_category_dropdown n_clicks new_category st
      = (Returns (value opts, text, alert), st') ->
    toggle_modal new_category is_open = is_open.
Proof.
  intros n txt st st' opts text alert b Hrun.
  destruct (options_follow_storage_aux n txt st st' _ Hrun) as [s [Htxt Hal]];
    [simpl; discriminate | subst txt].
  now apply toggle_modal_on_dropdown_values.
Qed.

End AddCategoryOutputs.

(* ------------------------------------------------------------------ *)
(** ** [layout] *)

Section Layout.

Context {Store : Type} `{CategoryRepository Store}.

Lemma ids_layout_container (opts : list dropdown_option) :
  ids (layout_container opts)
  = ["spending_amount"; "category_dropdown"; "submit_button";
     "alert-container"; "output-container"; "modal_new_category";
     "new_category_input"; "add_new_category_button"].
Proof. reflexivity. Qed.

Lemma layout_returns_inv (st st' : Store) (tree : component) :
  layout st = (Returns tree, st') ->
  exists cats,
    get_categories st = (Returns cats, st')
    /\ tree = layout_container (dropdown_options cats).
Proof.
  unfold layout.
  destruct (get_categories st) as [[cats|e] st1]; [|discriminate].
  intros Heq; inversion Heq; subst. now exists cats.
Qed.

(** Whatever categories are stored, the component ids of the page that
    [layout] returns are pairwise distinct, and every component id named
    by an [Output], [Input] or [State] of a registered callback is the id
    of a component of the page. *)
Theorem layout_ids_cover_callbacks :
  forall (st st' : Store) (tree : component),
    layout st = (Returns tree, st') ->
    NoDup (ids tree)
    /\ forall cb dep,
         In cb (register_callbacks []) -> In dep (dependencies cb) ->
         In (component_id dep) (ids tree).
Proof.
  intros st st' tree Hrun.
  destruct (layout_returns_inv st st' tree Hrun) as [cats [_ ->]].
  rewrite ids_layout_container. split.
  - repeat (constructor; [simpl; intuition discriminate|]). constructor.
  - intros cb dep Hcb Hdep. simpl in Hcb.
    destruct Hcb as [<- | [<- | [<- | []]]]; simpl in Hdep;
      repeat (destruct Hdep as [<- | Hdep]; [simpl; tauto|]);
      contradiction.
Qed.

(** The dropdown of the page carries the options built from the fetched
    categories and the dialog starts closed; [layout] makes no other
    storage call than the fetch.  When the stored names are alphanumeric,
    selecting an option on the closed dialog opens it exactly when the
    option is the 'Add new' one. *)
Theorem layout_dropdown_opens_on_sentinel_only :
  forall (st st' : Store) (tree : component),
    layout st = (Returns tree, st') ->
    exists cats,
      get_categories st = (Returns cats, st')
      /\ property "category_dropdown" "options" tree
         = Some (POptions (dropdown_options cats))
      /\ property "modal_new_category" "is_open" tree = Some (PBool false)
      /\ (Forall (fun c => PyStr.isalnum c = true) cats ->
          forall o, In o (dropdown_options cats) ->
                    (toggle_modal (Some (value_of o)) false = true
                     <-> o = add_new_option)).
Proof.
  intros st st' tree Hrun.
  destruct (layout_returns_inv st st' tree Hrun) as [cats [Hget ->]].
  exists cats. split; [exact Hget|]. split; [reflexivity|]. split; [reflexivity|].
  intros Hall o Ho. unfold dropdown_options in Ho.
  apply in_app_or in Ho. destruct Ho as [Ho | [<- | []]].
  - apply in_map_iff in Ho. destruct Ho as [c [<- Hc]].
    rewrite Forall_forall in Hall. specialize (Hall c Hc). simpl value_of.
    rewrite (toggle_modal_on_dropdown_values c false Hall). split.
    + discriminate.
    + intros Heq. now elim (category_option_not_sentinel c).
  - split; reflexivity.
Qed.

(** When a fetch can be repeated, the page rendered after a successful
    add shows exactly the options that the handler returned, and
    rendering it leaves the store as the handler left it. *)
Theorem layout_after_add_agrees :
  repeatable_reads ->
  forall (n_clicks : option Z) (new_category : option string) (st st' : Store)
         (opts : list dropdown_option) (text : string) (alert : option Alert),
    update_category_dropdown n_clicks new_category st
      = (Returns (value opts, text, alert), st') ->
    layout st' = (Returns (layout_container opts), st').
Proof.
  intros Hrep n txt st st' opts text alert. unfold update_category_dropdown.
  destruct (is_none n || negb (PyStr.truthy txt)); [discriminate|].
  destruct txt as [s|]; [|discriminate].
  destruct (negb (PyStr.isalnum s)); [discriminate|].
  destruct (add_category_to_db s st) as [[u|e1] st1]; [|discriminate].
  destruct (get_categories st1) as [[cats|e2] st2] eqn:Hget; [|discriminate].
  intros Heq; inversion Heq; subst.
  unfold layout. now rewrite (Hrep st1 st' cats Hget).
Qed.

End Layout.

(* ------------------------------------------------------------------ *)
(** ** [update_output]: storage, connection and alerts in every run *)

Section SubmitRuns.

Variable Amount : Type.
Variable str_of_amount : Amount -> string.

(** The [try] statement, by what the storage calls do. *)
Lemma insert_spending_cases (run : sqlite3_faults) (a : Amount) (c : string)
    (db : list (row Amount)) :
  insert_spending run a c (mkState db None) =
    match connect_raises run with
    | Some _ => (Raise (UnboundLocalError "conn"), mkState db None)
    | None =>
        match first_error run with
        | None => (Normal, mkState (db ++ [(a, c)]) (Some (mkConn [] true)))
        | Some (sqlite3_Error msg) =>
            (Return (value (mkAlert (database_error_text msg) "danger" (Some 3000%Z))),
             mkState db (Some (mkConn [] true)))
        | Some e => (Raise e, mkState db (Some (mkConn [] true)))
        end
    end.
Proof. destruct run as [[[]|] [[]|] [[]|] [[]|]]; reflexivity. Qed.

(** The handler on a positive trigger count with both inputs. *)
Lemma update_output_triggered (run : sqlite3_faults) (n : Z) (a : Amount)
    (c : string) (db : list (row Amount)) :
  (0 < n)%Z ->
  update_output str_of_amount run (Some n) (Some a) (Some c) db =
    match connect_raises run with
    | Some _ => (Raise (UnboundLocalError "conn"), mkState db None)
    | None =>
        match first_error run with
        | None =>
            (Return (value (mkAlert (spending_added_text str_of_amount a c)
                              "success" (Some 3000%Z))),
             mkState (db ++ [(a, c)]) (Some (mkConn [] true)))
        | Some (sqlite3_Error msg) =>
            (Return (value (mkAlert (database_error_text msg) "danger" (Some 3000%Z))),
             mkState db (Some (mkConn [] true)))
        | Some e => (Raise e, mkState db (Some (mkConn [] true)))
        end
    end.
Proof.
  intros Hn. rewrite (update_output_positive Amount str_of_amount run n a c db Hn).
  unfold seq. rewrite insert_spending_cases.
  destruct (connect_raises run); [reflexivity|].
  destruct (first_error run) as [[msg|v|msg]|]; reflexivity.
Qed.

(** The handler on any other input opens no connection and keeps the rows. *)
Lemma update_output_untriggered (run : sqlite3_faults) (n_clicks : option Z)
    (amount : option Amount) (category : option string) (db : list (row Amount)) :
  (forall n a c, n_clicks = Some n -> amount = Some a -> category = Some c ->
                 (n <= 0)%Z) ->
  exists v,
    update_output str_of_amount run n_clicks amount category db
      = (Return v, mkState db None)
    /\ forall alert, v = value alert ->
                     duration alert = Some 3000%Z
                     /\ (color alert = "danger" \/ color alert = "warning").
Proof.
  intros Hnot. unfold update_output.
  destruct n_clicks as [n|].
  - destruct (0 <? n)%Z eqn:Hlt.
    + destruct amount as [a|], category as [c|];
        try (eexists; split; [reflexivity|];
             intros alert Hv; inversion Hv; subst alert; simpl; tauto).
      apply Z.ltb_lt in Hlt. specialize (Hnot n a c eq_refl eq_refl eq_refl). lia.
    + eexists; split; [reflexivity|].
      intros alert Hv; inversion Hv; subst alert; simpl; tauto.
  - eexists; split; [reflexivity|]. intros alert Hv. discriminate.
Qed.

Lemma triggered_or_not (n_clicks : option Z) (amount : option Amount)
    (category : option string) :
  (exists n a c, n_clicks = Some n /\ amount = Some a /\ category = Some c
                 /\ (0 < n)%Z)
  \/ (forall n a c, n_clicks = Some n -> amount = Some a -> category = Some c ->
                    (n <= 0)%Z).
Proof.
  destruct n_clicks as [n|], amount as [a|], category as [c|];
    try (right; intros; discriminate).
  destruct (Z_lt_le_dec 0 n) as [Hlt|Hle].
  - left. now exists n, a, c.
  - right. intros n' a' c' Hn _ _. inversion Hn; subst. exact Hle.
Qed.

(** In every run the handler either returns the success alert for the
    submitted pair and has committed exactly that row after the existing
    ones, or it leaves the committed rows as they were and returns no
    success alert: a row is never stored without the success alert, and
    existing rows are never removed or changed. *)
Theorem submit_commits_iff_success :
  forall (run : sqlite3_faults) (n_clicks : option Z) (amount : option Amount)
         (category : option string) (db : list (row Amount)),
    (exists a c,
        amount = Some a /\ category = Some c
        /\ fst (update_output str_of_amount run n_clicks amount category db)
           = Return (value (mkAlert (spending_added_text str_of_amount a c)
                              "success" (Some 3000%Z)))
        /\ spending (snd (update_output str_of_amount run n_clicks amount category db))
           = db ++ [(a, c)])
    \/ (spending (snd (update_output str_of_amount run n_clicks amount category db))
        = db
        /\ forall alert,
             fst (update_output str_of_amount run n_clicks amount category db)
             = Return (value alert) ->
             color alert <> "success").
Proof.
  intros run n_clicks amount category db.
  destruct (triggered_or_not n_clicks amount category)
    as [[n [a [c [-> [-> [-> Hn]]]]]] | Hnot].
  - rewrite (update_output_triggered run n a c db Hn).
    destruct (connect_raises run).
    + right. split; [reflexivity|]. intros alert Habs. discriminate.
    + destruct (first_error run) as [[msg|v|msg]|].
      * right. split; [reflexivity|].
        intros alert Heq. inversion Heq; subst alert. discriminate.
      * right. split; [reflexivity|]. intros alert Habs. discriminate.
      * right. split; [reflexivity|]. intros alert Habs. discriminate.
      * left. exists a, c. repeat split; reflexivity.
  - destruct (update_output_untriggered run n_clicks amount category db Hnot)
      as [v [Hrun Halert]].
    right. rewrite Hrun. split; [reflexivity|].
    intros alert Heq. simpl in Heq. inversion Heq as [Hv].
    destruct (Halert alert Hv) as [_ [Hc | Hc]]; rewrite Hc; discriminate.
Qed.

(** In every run, whatever the storage calls do and whatever the handler
    returns or raises, it leaves no open connection behind: either none
    was opened, or the one it opened is closed and holds no pending row. *)
Theorem submit_releases_connection :
  forall (run : sqlite3_faults) (n_clicks : option Z) (amount : option Amount)
         (category : option string) (db : list (row Amount)),
    released (snd (update_output str_of_amount run n_clicks amount category db)).
Proof.
  intros run n_clicks amount category db. unfold released.
  destruct (triggered_or_not n_clicks amount category)
    as [[n [a [c [-> [-> [-> Hn]]]]]] | Hnot].
  - rewrite (update_output_triggered run n a c db Hn).
    destruct (connect_raises run); [left; reflexivity|].
    destruct (first_error run) as [[msg|v|msg]|]; right; reflexivity.
  - destruct (update_output_untriggered run n_clicks amount category db Hnot)
      as [v [Hrun _]].
    rewrite Hrun. left. reflexivity.
Qed.

(** An exception that is not an [sqlite3.Error], raised by the cursor, the
    insert or the commit after the connection opened, is not turned into
    an alert: the handler raises it, after closing the connection and
    without committing anything. *)
Theorem submit_other_exception_propagates :
  forall (run : sqlite3_faults) (n : Z) (a : Amount) (c : string)
         (db : list (row Amount)) (e : exn),
    (0 < n)%Z -> connect_raises run = None -> first_error run = Some e ->
    (forall msg, e <> sqlite3_Error msg) ->
    update_output str_of_amount run (Some n) (Some a) (Some c) db
      = (Raise e, mkState db (Some (mkConn [] true))).
Proof.
  intros run n a c db e Hn Hconn Hfirst Hother.
  rewrite (update_output_triggered run n a c db Hn), Hconn, Hfirst.
  destruct e as [msg|v|msg]; [|reflexivity|reflexivity].
  now elim (Hother msg).
Qed.

(** Every alert that the handler returns dismisses itself after 3000 ms
    and has one of the colors success, danger and warning. *)
Theorem submit_alerts_auto_dismiss :
  forall (run : sqlite3_faults) (n_clicks : option Z) (amount : option Amount)
         (category : option string) (db : list (row Amount)) (alert : Alert)
         (st : state Amount),
    update_output str_of_amount run n_clicks amount category db
      = (Return (value alert), st) ->
    duration alert = Some 3000%Z
    /\ (color alert = "success" \/ color alert = "danger" \/ color alert = "warning").
Proof.
  intros run n_clicks amount category db alert st.
  destruct (triggered_or_not n_clicks amount category)
    as [[n [a [c [-> [-> [-> Hn]]]]]] | Hnot].
  - rewrite (update_output_triggered run n a c db Hn).
    destruct (connect_raises run); [discriminate|].
    destruct (first_error run) as [[msg|v|msg]|]; try discriminate;
      intros Heq; inversion Heq; subst; simpl; tauto.
  - destruct (update_output_untriggered run n_clicks amount category db Hnot)
      as [v [Hrun Halert]].
    rewrite Hrun. intros Heq. inversion Heq as [[Hv Hst]].
    destruct (Halert alert Hv) as [Hd Hc]. tauto.
Qed.

Lemma submit_step_rows (s : submission Amount) (db : list (row Amount)) :
  spending (snd (update_output str_of_amount (sub_run s) (sub_clicks s)
                   (sub_amount s) (sub_category s) db))
  = db ++ accepted_row s.
Proof.
  destruct s as [run n_clicks amount category]. unfold accepted_row. simpl.
  destruct (triggered_or_not n_clicks amount category)
    as [[n [a [c [-> [-> [-> Hn]]]]]] | Hnot].
  - rewrite (update_output_triggered run n a c db Hn).
    apply Z.ltb_lt in Hn.
    destruct run as [[[]|] [[]|] [[]|] [[]|]]; simpl;
      rewrite ?Hn, ?app_nil_r; reflexivity.
  - destruct (update_output_untriggered run n_clicks amount category db Hnot)
      as [v [Hrun _]].
    rewrite Hrun. simpl.
    destruct n_clicks as [n|]; [|now rewrite app_nil_r].
    destruct amount as [a|]; [|now rewrite app_nil_r].
    destruct category as [c|]; [|now rewrite app_nil_r].
    specialize (Hnot n a c eq_refl eq_refl eq_refl).
    destruct (0 <? n)%Z eqn:Hlt; [apply Z.ltb_lt in Hlt; lia|].
    destruct (first_error run); now rewrite app_nil_r.
Qed.

(** After any sequence of invocations against the same database, the
    spending table holds the rows it started with followed, in order, by
    the rows of the invocations that had a positive trigger count, both
    inputs and no failing storage call; the other invocations leave no
    trace. *)
Theorem submissions_append_accepted_rows :
  forall (l : list (submission Amount)) (db : list (row Amount)),
    submit_all str_of_amount l db = db ++ flat_map accepted_row l.
Proof.
  induction l as [|s rest IH]; intros db; simpl.
  - now rewrite app_nil_r.
  - rewrite submit_step_rows, IH. now rewrite app_assoc.
Qed.

End SubmitRuns.

(* ------------------------------------------------------------------ *)
(** ** The further properties on the categories table and integer amounts *)

Section FurtherExamples.

Lemma table_repeatable_reads : @repeatable_reads category_table table_repository.
Proof.
  intros t t1 cats. simpl.
  destruct (select_error t) as [e|] eqn:Hsel; [discriminate|].
  intros Heq; inversion Heq; subst. now rewrite Hsel.
Qed.

Lemma options_follow_storage_witness :
  exists s st1 cats,
    Some "Food" = Some s /\ PyStr.isalnum s = true
    /\ add_category_to_db s (healthy_table ["Rent"]) = (Returns tt, st1)
    /\ get_categories st1 = (Returns cats, healthy_table ["Rent"; "Food"])
    /\ dropdown_options ["Rent"; "Food"] = dropdown_options cats.
Proof.
  exact (options_follow_storage (Some 1%Z) (Some "Food") (healthy_table ["Rent"])
           (healthy_table ["Rent"; "Food"])
           (value (dropdown_options ["Rent"; "Food"]), "",
            Some (mkAlert (category_added_text "Food") "success" None))
           eq_refl).
Defined.

Lemma stored_name_never_opens_dialog_witness :
  toggle_modal (Some "Food") false = false.
Proof.
  exact (stored_name_never_opens_dialog (Some 1%Z) (Some "Food")
           (healthy_table ["Rent"]) (healthy_table ["Rent"; "Food"])
           (dropdown_options ["Rent"; "Food"]) ""
           (Some (mkAlert (category_added_text "Food") "success" None))
           false eq_refl).
Defined.

Lemma layout_ids_cover_callbacks_witness :
  NoDup (ids (layout_container (dropdown_options ["Rent"; "Food"])))
  /\ In "category_dropdown" (ids (layout_container (dropdown_options ["Rent"; "Food"]))).
Proof.
  assert (Hrun : layout (healthy_table ["Rent"; "Food"])
                 = (Returns (layout_container (dropdown_options ["Rent"; "Food"])),
                    healthy_table ["Rent"; "Food"])) by reflexivity.
  destruct (layout_ids_cover_callbacks _ _ _ Hrun) as [Hnodup Hcover].
  split.
  - exact Hnodup.
  - apply (Hcover toggle_modal_callback (mkDep "category_dropdown" "value")).
    + left. reflexivity.
    + right. left. reflexivity.
Defined.

Lemma layout_dropdown_opens_on_sentinel_only_witness :
  exists cats,
    get_categories (healthy_table ["Rent"; "Food"])
      = (Returns cats, healthy_table ["Rent"; "Food"])
    /\ property "category_dropdown" "options"
         (layout_container (dropdown_options ["Rent"; "Food"]))
       = Some (POptions (dropdown_options cats))
    /\ property "modal_new_category" "is_open"
         (layout_container (dropdown_options ["Rent"; "Food"]))
       = Some (PBool false)
    /\ (Forall (fun c => PyStr.isalnum c = true) cats ->
        forall o, In o (dropdown_options cats) ->
                  (toggle_modal (Some (value_of o)) false = true
                   <-> o = add_new_option)).
Proof.
  assert (Hrun : layout (healthy_table ["Rent"; "Food"])
                 = (Returns (layout_container (dropdown_options ["Rent"; "Food"])),
                    healthy_table ["Rent"; "Food"])) by reflexivity.
  exact (layout_dropdown_opens_on_sentinel_only _ _ _ Hrun).
Defined.

Lemma layout_after_add_agrees_witness :
  layout (healthy_table ["Rent"; "Food"])
  = (Returns (layout_container (dropdown_options ["Rent"; "Food"])),
     healthy_table ["Rent"; "Food"]).
Proof.
  exact (layout_after_add_agrees table_repeatable_reads (Some 1%Z) (Some "Food")
           (healthy_table ["Rent"]) (healthy_table ["Rent"; "Food"])
           (dropdown_options ["Rent"; "Food"]) ""
           (Some (mkAlert (category_added_text "Food") "success" None))
           eq_refl).
Defined.

Lemma submit_reports_storage_error_witness :
  update_output_int (mkFaults None None None (Some database_is_locked))
    (Some 1%Z) (Some 42%Z) (Some "Food") [(7%Z, "Rent")]
  = (Return (value (mkAlert (database_error_text "database is locked")
                      "danger" (Some 3000%Z))),
     mkState [(7%Z, "Rent")] (Some (mkConn [] true)))
  /\ PyStr.contains "database is locked"
       (database_error_text "database is locked") = true.
Proof.
  exact (submit_reports_storage_error Z PyStr.str_of_int
           (mkFaults None None None (Some database_is_locked))
           1%Z 42%Z "Food" [(7%Z, "Rent")] "database is locked"
           eq_refl eq_refl eq_refl).
Defined.

Lemma submit_other_exception_propagates_witness :
  update_output_int (mkFaults None None (Some (Exception "interrupted")) None)
    (Some 1%Z) (Some 42%Z) (Some "Food") [(7%Z, "Rent")]
  = (Raise (Exception "interrupted"),
     mkState [(7%Z, "Rent")] (Some (mkConn [] true))).
Proof.
  apply (submit_other_exception_propagates Z PyStr.str_of_int
           (mkFaults None None (Some (Exception "interrupted")) None)
           1%Z 42%Z "Food" [(7%Z, "Rent")] (Exception "interrupted"));
    try reflexivity.
  intros msg. discriminate.
Defined.

Lemma submit_alerts_auto_dismiss_witness :
  duration (mkAlert "Please enter a valid amount and select a category"
              "danger" (Some 3000%Z)) = Some 3000%Z
  /\ (color (mkAlert "Please enter a valid amount and select a category"
               "danger" (Some 3000%Z)) = "success"
      \/ color (mkAlert "Please enter a valid amount and select a category"
                  "danger" (Some 3000%Z)) = "danger"
      \/ color (mkAlert "Please enter a valid amount and select a category"
                  "danger" (Some 3000%Z)) = "warning").
Proof.
  exact (submit_alerts_auto_dismiss Z PyStr.str_of_int no_faults (Some 1%Z) None
           (Some "Food") [(7%Z, "Rent")]
           (mkAlert "Please enter a valid amount and select a category"
              "danger" (Some 3000%Z))
           (mkState [(7%Z, "Rent")] None) eq_refl).
Defined.

(** Three invocations in a row: a submission, one whose insert fails and
    one without an amount leave the first row only. *)
Example three_submissions :
  submit_all PyStr.str_of_int
    [ mkSubmission no_faults (Some 1%Z) (Some 42%Z) (Some "Food");
      mkSubmission (mkFaults None None (Some database_is_locked) None)
        (Some 2%Z) (Some 5%Z) (Some "Rent");
      mkSubmission no_faults (Some 3%Z) None (Some "Rent") ]
    [(7%Z, "Rent")]
  = [(7%Z, "Rent"); (42%Z, "Food")].
Proof. reflexivity. Qed.

End FurtherExamples.
